(** * Handcrafted Arts Initiative API: the request handlers of [main.py]

    A shallow embedding of the FastAPI handlers of [src/main.py] and of the
    pydantic records of [src/schemas.py], with the theorems that settle the
    behaviour of the registration, event, listing and diagnostic endpoints.

    Python values are an inductive type [pyval]; a Python [dict] is a
    [gmap string pyval].  A handler is a computation in a small monad that
    threads the handler's local variables and the log of the calls it makes
    to its collaborators (document store, outbound HTTP), and that can raise
    and catch exceptions the way [try]/[except Exception] does. *)

From Stdlib Require Import ZArith String.
From stdpp Require Import gmap strings list fin_maps pretty.

Local Open Scope string_scope.
Local Open Scope Z_scope.

(** ** Python values *)

(** [datetime.datetime]: an aware timestamp, kept by its ISO-8601 text, the
    one attribute the handlers use ([isoformat()]). *)
Record datetime : Type := Datetime { isoformat : string }.

#[local] Unset Elimination Schemes.
Inductive pyval : Type :=
| VNone
| VBool (b : bool)
| VInt (z : Z)
| VStr (s : string)
| VObjectId (hex : string)        (* bson.ObjectId, kept by its hex text *)
| VDatetime (t : datetime)
| VList (l : list pyval)
| VDict (d : gmap string pyval).
#[local] Set Elimination Schemes.

(** [x if x is not None else None] for an [Optional[str]] field. *)
Definition opt_str (o : option string) : pyval :=
  match o with
  | Some s => VStr s
  | None => VNone
  end.

(** Truth value of an [Optional[str]]: [None] and [""] are falsy. *)
Definition truthy (o : option string) : bool :=
  match o with
  | Some s => negb (String.eqb s "")
  | None => false
  end.

(** [s[:n]] on a [str]. *)
Definition slice_to (n : nat) (s : string) : string := String.substring 0 n s.

(** ** Exceptions *)

(** Instances of [Exception]: what [except Exception] catches.  [HTTPException]
    is FastAPI's; every other class is kept by its name and its [str()]. *)
Inductive exn : Type :=
| PyException (cls : string) (msg : string)
| HTTPException (status_code : Z) (detail : string).

Definition UnboundLocalError (var : string) : exn :=
  PyException "UnboundLocalError"
    ("cannot access local variable '" ++ var ++ "' where it is not associated with a value").

(** [str(e)]; Starlette renders an [HTTPException] as [status: detail]. *)
Definition str_exn (e : exn) : string :=
  match e with
  | PyException _ msg => msg
  | HTTPException c d => pretty c ++ ": " ++ d
  end.

Inductive result (A : Type) : Type :=
| Returns (a : A)
| Raises (e : exn).
Arguments Returns {A} a.
Arguments Raises {A} e.

(** ** The records of [schemas.py] *)

Module Artisan.
Record t : Type := Make {
  name : string;
  craft_type : string;
  region : string;
  bio : option string;
  avatar_url : option string;
  portfolio_images : option (list string);
  phone : option string;
  price_range : option string;
  featured : bool;
}.
End Artisan.

Module Registration.
Record t : Type := Make {
  name : string;
  craft_type : string;
  location : string;
  phone : string;
  email : option string;
  image1_base64 : option string;
  image2_base64 : option string;
  consent : bool;
  source : option string;
}.

(** pydantic's [model_dump()]: one key per declared field. *)
Definition model_dump (r : t) : gmap string pyval :=
  list_to_map
    [ ("name", VStr (name r));
      ("craft_type", VStr (craft_type r));
      ("location", VStr (location r));
      ("phone", VStr (phone r));
      ("email", opt_str (email r));
      ("image1_base64", opt_str (image1_base64 r));
      ("image2_base64", opt_str (image2_base64 r));
      ("consent", VBool (consent r));
      ("source", opt_str (source r)) ].

(** The names of the declared fields. *)
Definition fields : gset string :=
  list_to_set
    [ "name"; "craft_type"; "location"; "phone"; "email";
      "image1_base64"; "image2_base64"; "consent"; "source" ].
End Registration.

(** [class Event(BaseModel)] of [main.py]. *)
Module Event.
Record t : Type := Make {
  name : string;
  meta : option (gmap string pyval);
}.
End Event.

(** ** Collaborators *)

(** What a handler hands to [create_document]: a model instance or a dict. *)
Inductive record_arg : Type :=
| OfArtisan (a : Artisan.t)
| OfRegistration (r : Registration.t)
| OfDict (d : gmap string pyval).

(** [requests.Response], by its status code. *)
Record Response : Type := MkResponse { status_code : Z }.

(** [Response.ok]: [raise_for_status()] raises exactly for a status in
    400..599, and [ok] is true when it does not raise. *)
Definition ok (r : Response) : bool :=
  negb ((400 <=? status_code r) && (status_code r <? 600)).

(** The store handle [db] of the [database] module. *)
Record Database : Type := MkDatabase {
  db_name : option string;                       (* getattr(db, "name", None) *)
  list_collection_names : result (list string);
}.

(** Everything outside [main.py] that a request can observe: the process
    environment, the [database] module (absent from the sources, taken as a
    parameter), the [requests] and [bson] packages and the clock. *)
Record World : Type := MkWorld {
  environ : gmap string string;
  db : option Database;
  create_document : string -> record_arg -> result string;
  get_documents : string -> gmap string pyval -> Z -> result (list (gmap string pyval));
  import_requests : result unit;
  requests_post : string -> gmap string pyval -> Z -> result Response;
  import_bson : result unit;
  utcnow : datetime;
}.

(** [os.getenv(key)] *)
Definition getenv (w : World) (key : string) : option string := environ w !! key.

(** The calls a handler makes to the outside, in the order it makes them. *)
Inductive effect : Type :=
| StoreInsert (collection : string) (data : record_arg)
| StoreFind (collection : string) (filt : gmap string pyval) (limit : Z)
| StoreListCollections
| HttpPost (url : string) (json : gmap string pyval) (timeout : Z).

Definition is_post (e : effect) : bool :=
  match e with
  | HttpPost _ _ _ => true
  | _ => false
  end.

Definition is_insert (e : effect) : bool :=
  match e with
  | StoreInsert _ _ => true
  | _ => false
  end.

(** ** The handler monad: local variables, call log, exceptions *)

Record frame (L : Type) : Type := Frame { locals : L; trace : list effect }.
Arguments Frame {L} locals trace.
Arguments locals {L} f.
Arguments trace {L} f.

Definition M (L A : Type) : Type := frame L -> result A * frame L.

Section Monad.
Context {L : Type}.

Definition ret {A} (a : A) : M L A := fun s => (Returns a, s).

Definition bind {A B} (m : M L A) (k : A -> M L B) : M L B :=
  fun s =>
    match m s with
    | (Returns a, s') => k a s'
    | (Raises e, s') => (Raises e, s')
    end.

Definition raise {A} (e : exn) : M L A := fun s => (Raises e, s).

(** [try: m  except Exception as e: h e].  Whatever [m] assigned and
    called before it raised stays assigned and called. *)
Definition try_except {A} (m : M L A) (h : exn -> M L A) : M L A :=
  fun s =>
    match m s with
    | (Returns a, s') => (Returns a, s')
    | (Raises e, s') => h e s'
    end.

(** A call to a collaborator: it is logged, then returns or raises. *)
Definition call {A} (ev : effect) (r : result A) : M L A :=
  fun s =>
    (r, Frame (locals s) (trace s ++ [ev])%list).

(** A step that only returns or raises (an [import], a pure library call). *)
Definition lift {A} (r : result A) : M L A := fun s => (r, s).

(** Assignment to local variables. *)
Definition assign (f : L -> L) : M L unit :=
  fun s => (Returns tt, Frame (f (locals s)) (trace s)).

(** Reading a local variable; an unbound one raises. *)
Definition var {A} (name : string) (proj : L -> option A) : M L A :=
  fun s =>
    match proj (locals s) with
    | Some a => (Returns a, s)
    | None => (Raises (UnboundLocalError name), s)
    end.
End Monad.

Declare Scope py_scope.
Delimit Scope py_scope with py.
Notation "x <- c1 ;; c2" := (bind c1 (fun x => c2))
  (at level 100, c1 at next level, right associativity) : py_scope.
Notation "c1 ;; c2" := (bind c1 (fun _ => c2))
  (at level 100, right associativity) : py_scope.

(** Running a handler: all locals unbound, nothing called yet. *)
Definition run {L A} (unbound : L) (m : M L A) : result A * list effect :=
  let '(r, s) := m (Frame unbound []) in (r, trace s).

Local Open Scope py_scope.

(** ** [GET /test]: [test_database] *)

Module Diag.
Record vars : Type := Vars { response : option (gmap string pyval) }.
Definition unbound : vars := Vars None.
End Diag.

Definition RUNNING : string := "✅ Running".
Definition NOT_AVAILABLE : string := "❌ Not Available".
Definition AVAILABLE : string := "✅ Available".
Definition CONNECTED_WORKING : string := "✅ Connected & Working".
Definition CONNECTED_BUT_ERROR : string := "⚠️  Connected but Error: ".
Definition NOT_INITIALIZED : string := "⚠️  Available but not initialized".
Definition ERROR_PREFIX : string := "❌ Error: ".
Definition SET : string := "✅ Set".
Definition NOT_SET : string := "❌ Not Set".

(** ["✅ Set" if os.getenv(key) else "❌ Not Set"] *)
Definition presence (w : World) (key : string) : pyval :=
  VStr (if truthy (getenv w key) then SET else NOT_SET).

(** [response[key] = v] *)
Definition set_response (key : string) (v : pyval) : M Diag.vars unit :=
  r <- var "response" Diag.response ;;
  assign (fun _ => Diag.Vars (Some (<[key := v]> r))).

(** [getattr(db, "name", None) or "unknown"] *)
Definition name_or_unknown (d : Database) : string :=
  if truthy (db_name d) then default "unknown" (db_name d) else "unknown".

Definition test_database (w : World) : M Diag.vars (gmap string pyval) :=
  assign (fun _ => Diag.Vars (Some (list_to_map
    [ ("backend", VStr RUNNING);
      ("database", VStr NOT_AVAILABLE);
      ("database_url", VNone);
      ("database_name", VNone);
      ("connection_status", VStr "Not Connected");
      ("collections", VList []) ]))) ;;
  try_except
    (match db w with
     | Some d =>
         set_response "database" (VStr AVAILABLE) ;;
         set_response "database_url" (presence w "DATABASE_URL") ;;
         set_response "database_name" (VStr (name_or_unknown d)) ;;
         set_response "connection_status" (VStr "Connected") ;;
         try_except
           (collections <- call StoreListCollections (list_collection_names d) ;;
            set_response "collections" (VList (VStr <$> take 10 collections)) ;;
            set_response "database" (VStr CONNECTED_WORKING))
           (fun e =>
              set_response "database"
                (VStr (CONNECTED_BUT_ERROR ++ slice_to 80 (str_exn e))))
     | None =>
         set_response "database" (VStr NOT_INITIALIZED)
     end)
    (fun e =>
       set_response "database" (VStr (ERROR_PREFIX ++ slice_to 80 (str_exn e)))) ;;
  set_response "database_url" (presence w "DATABASE_URL") ;;
  set_response "database_name" (presence w "DATABASE_NAME") ;;
  var "response" Diag.response.

(** ** [POST /api/artisans]: [create_artisan] *)

Definition create_artisan (w : World) (artisan : Artisan.t) : M unit (gmap string pyval) :=
  try_except
    (inserted_id <- call (StoreInsert "artisan" (OfArtisan artisan))
                         (create_document w "artisan" (OfArtisan artisan)) ;;
     ret (list_to_map [ ("ok", VBool true); ("id", VStr inserted_id) ]))
    (fun e => raise (HTTPException 500 (str_exn e))).

(** ** [GET /api/artisans]: [list_artisans] *)

Module Listing.
Record vars : Type := Vars { docs : option (list (gmap string pyval)) }.
Definition unbound : vars := Vars None.
End Listing.

(** [isinstance(d.get("_id"), ObjectId)] *)
Definition has_object_id (d : gmap string pyval) : bool :=
  match d !! "_id" with
  | Some (VObjectId _) => true
  | _ => false
  end.

(** The loop body: [if isinstance(...): d["id"] = str(d.pop("_id"))];
    [str] of an [ObjectId] is its hex text. *)
Definition normalize_id (d : gmap string pyval) : gmap string pyval :=
  match d !! "_id" with
  | Some (VObjectId hex) => <["id" := VStr hex]> (delete "_id" d)
  | _ => d
  end.

(** The filter dict built from the query parameters. *)
Definition artisan_filter (category region : option string) (featured : option bool)
  : gmap string pyval :=
  let filt : gmap string pyval := ∅ in
  let filt := if truthy category then <["craft_type" := opt_str category]> filt else filt in
  let filt := if truthy region then <["region" := opt_str region]> filt else filt in
  match featured with
  | Some b => <["featured" := VBool b]> filt
  | None => filt
  end.

Definition list_artisans (w : World)
    (category region : option string) (featured : option bool) (limit : Z)
  : M Listing.vars (list (gmap string pyval)) :=
  let filt := artisan_filter category region featured in
  try_except
    (found <- call (StoreFind "artisan" filt limit) (get_documents w "artisan" filt limit) ;;
     assign (fun _ => Listing.Vars (Some found)) ;;
     lift (import_bson w) ;;
     (* the loop changes each dict of [docs] in place and cannot raise *)
     ds <- var "docs" Listing.docs ;;
     assign (fun _ => Listing.Vars (Some (normalize_id <$> ds))) ;;
     var "docs" Listing.docs)
    (fun _ => var "docs" Listing.docs).

(** ** [POST /api/register]: [register_artisan] *)

Module Register.
Record vars : Type := Vars {
  forwarded : option bool;
  forward_status : option pyval;
}.
Definition unbound : vars := Vars None None.
Definition set_forwarded (b : bool) (v : vars) : vars :=
  Vars (Some b) (forward_status v).
Definition set_forward_status (x : pyval) (v : vars) : vars :=
  Vars (forwarded v) (Some x).
End Register.

(** [data = payload.model_dump(); data.update({...})] *)
Definition outbound (w : World) (payload : Registration.t) (reg_id : string)
  : gmap string pyval :=
  <["_registration_id" := VStr reg_id]>
    (<["_received_at" := VStr (isoformat (utcnow w))]>
       (<["_source" := VStr "website"]> (Registration.model_dump payload))).

Definition register_response (reg_id : string) (forwarded : bool) (forward_status : pyval)
  : gmap string pyval :=
  list_to_map
    [ ("ok", VBool true);
      ("id", VStr reg_id);
      ("forwarded", VBool forwarded);
      ("forward_status", forward_status) ].

Definition register_artisan (w : World) (payload : Registration.t)
  : M Register.vars (gmap string pyval) :=
  reg_id <- try_except
              (call (StoreInsert "registration" (OfRegistration payload))
                    (create_document w "registration" (OfRegistration payload)))
              (fun e => raise (HTTPException 500 ("DB error: " ++ str_exn e))) ;;
  let webhook := getenv w "GOOGLE_SHEETS_WEBHOOK_URL" in
  assign (Register.set_forwarded false) ;;
  assign (Register.set_forward_status VNone) ;;
  (if truthy webhook then
     try_except
       (lift (import_requests w) ;;
        let data := outbound w payload reg_id in
        r <- call (HttpPost (default "" webhook) data 10)
                  (requests_post w (default "" webhook) data 10) ;;
        assign (Register.set_forwarded (ok r)) ;;
        assign (Register.set_forward_status (VInt (status_code r))))
       (fun e =>
          assign (Register.set_forward_status
                    (VStr ("error: " ++ slice_to 120 (str_exn e)))))
   else ret tt) ;;
  forwarded <- var "forwarded" Register.forwarded ;;
  forward_status <- var "forward_status" Register.forward_status ;;
  ret (register_response reg_id forwarded forward_status).

(** ** [POST /api/event]: [track_event] *)

(** [meta or {}]: [None] and the empty dict are falsy. *)
Definition or_empty (meta : option (gmap string pyval)) : gmap string pyval :=
  match meta with
  | Some m => if bool_decide (size m = 0%nat) then ∅ else m
  | None => ∅
  end.

Definition event_document (w : World) (ev : Event.t) : gmap string pyval :=
  list_to_map
    [ ("name", VStr (Event.name ev));
      ("meta", VDict (or_empty (Event.meta ev)));
      ("ts", VDatetime (utcnow w)) ].

Definition track_event (w : World) (ev : Event.t) : M unit (gmap string pyval) :=
  try_except
    (call (StoreInsert "event" (OfDict (event_document w ev)))
          (create_document w "event" (OfDict (event_document w ev))) ;;
     ret tt)
    (fun _ => ret tt) ;;
  ret (list_to_map [ ("ok", VBool true) ]).

(** ** Vocabulary of the statements *)

Definition WEBHOOK_VAR : string := "GOOGLE_SHEETS_WEBHOOK_URL".

(** The forwarding URL is configured: the variable is set and not empty. *)
Definition configured (w : World) : bool := truthy (getenv w WEBHOOK_VAR).

Definition webhook_url (w : World) : string := default "" (getenv w WEBHOOK_VAR).

Definition insert_of (payload : Registration.t) : effect :=
  StoreInsert "registration" (OfRegistration payload).

Definition post_of (w : World) (payload : Registration.t) (reg_id : string) : effect :=
  HttpPost (webhook_url w) (outbound w payload reg_id) 10.

Definition error_status (e : exn) : pyval :=
  VStr ("error: " ++ slice_to 120 (str_exn e)).

Definition register (w : World) (payload : Registration.t)
  : result (gmap string pyval) * list effect :=
  run Register.unbound (register_artisan w payload).

Definition provenance_keys : gset string :=
  list_to_set [ "_source"; "_received_at"; "_registration_id" ].

(** A status code outside 200..299. *)
Definition non_2xx (r : Response) : Prop := ~ (200 <= status_code r < 300).

(** The remote answered, and [requests] counts the answer as a failure. *)
Definition rejected (r : Response) : Prop := 400 <= status_code r < 600.

(** The reading of a remote rejection as "any non-2xx status": the store
    accepted the record, the POST completed with such a status, and the
    response says [forwarded = False] with the status code. *)
Definition non_2xx_reported_unforwarded (w : World) (payload : Registration.t) : Prop :=
  forall reg_id u r,
    configured w = true ->
    create_document w "registration" (OfRegistration payload) = Returns reg_id ->
    import_requests w = Returns u ->
    requests_post w (webhook_url w) (outbound w payload reg_id) 10 = Returns r ->
    non_2xx r ->
    fst (register w payload) =
      Returns (register_response reg_id false (VInt (status_code r))).

(** ** Sample requests and worlds *)

Definition sample_registration : Registration.t :=
  Registration.Make "Asha" "pottery" "Jaipur" "5550100" None None None
    false (Some "partner").

Definition NEW_YEAR : datetime := Datetime "2024-01-01T00:00:00+00:00".

(** A store that accepts every write with id [r1] and holds no artisan. *)
Definition accepting_store : string -> record_arg -> result string :=
  fun _ _ => Returns "r1".

Definition failing_store : string -> record_arg -> result string :=
  fun _ _ => Raises (PyException "Exception" "Database not available").

Definition with_webhook : gmap string string :=
  <[WEBHOOK_VAR := "https://script.example/exec"]> ∅.

(** Webhook configured; the remote answers every POST with status [st]. *)
Definition world_answering (st : Z) : World :=
  MkWorld with_webhook None accepting_store (fun _ _ _ => Returns [])
    (Returns tt) (fun _ _ _ => Returns (MkResponse st)) (Returns tt) NEW_YEAR.


(** No webhook in the environment. *)
Definition world_plain : World :=
  MkWorld ∅ None accepting_store (fun _ _ _ => Returns [])
    (Returns tt) (fun _ _ _ => Returns (MkResponse 200)) (Returns tt) NEW_YEAR.


(** The store is down: every write raises, and so does the listing of
    collections. *)
Definition world_store_down : World :=
  MkWorld ∅
    (Some (MkDatabase (Some "crafts")
             (Raises (PyException "ServerSelectionTimeoutError" "no servers found"))))
    failing_store
    (fun _ _ _ => Raises (PyException "Exception" "Database not available"))
    (Returns tt) (fun _ _ _ => Returns (MkResponse 200)) (Returns tt) NEW_YEAR.

(** Two stored artisans: one keyed by an [ObjectId], one by a plain string. *)
Definition by_object_id : gmap string pyval :=
  <["_id" := VObjectId "65a1f0c2e4b0a1b2c3d4e5f6"]> (<["name" := VStr "Asha"]> ∅).

Definition by_string_id : gmap string pyval :=
  <["_id" := VStr "artisan-7"]> (<["name" := VStr "Bela"]> ∅).

Definition world_mixed_ids : World :=
  MkWorld ∅ None accepting_store
    (fun _ _ _ => Returns [ by_object_id; by_string_id ])
    (Returns tt) (fun _ _ _ => Returns (MkResponse 200)) (Returns tt) NEW_YEAR.

Definition sample_event : Event.t := Event.Make "page_view" None.

(** ** Running the other handlers *)

Definition track (w : World) (ev : Event.t)
  : result (gmap string pyval) * list effect :=
  run tt (track_event w ev).

Definition listing (w : World)
    (category region : option string) (featured : option bool) (limit : Z)
  : result (list (gmap string pyval)) * list effect :=
  run Listing.unbound (list_artisans w category region featured limit).

Definition diagnose (w : World) : result (gmap string pyval) * list effect :=
  run Diag.unbound (test_database w).

(** The [database] entry of the diagnostic object. *)
Definition database_status (w : World) : string :=
  match db w with
  | Some d =>
      match list_collection_names d with
      | Returns _ => CONNECTED_WORKING
      | Raises e => CONNECTED_BUT_ERROR ++ slice_to 80 (str_exn e)
      end
  | None => NOT_INITIALIZED
  end.

(** The [collections] entry of the diagnostic object. *)
Definition reported_collections (w : World) : list string :=
  match db w with
  | Some d =>
      match list_collection_names d with
      | Returns names => take 10 names
      | Raises _ => []
      end
  | None => []
  end.

(** A record whose store identifier has been replaced: no [_id] key, and an
    [id] key holding a string. *)
Definition identifier_replaced (d : gmap string pyval) : Prop :=
  d !! "_id" = None /\ exists s, d !! "id" = Some (VStr s).

(** The reading of the listing as "always normalised": whenever the handler
    returns an array, every record in it has its identifier replaced. *)
Definition listing_always_normalized (w : World)
    (category region : option string) (featured : option bool) (limit : Z) : Prop :=
  forall out,
    fst (listing w category region featured limit) = Returns out ->
    Forall identifier_replaced out.

(** ** Further handlers run, further samples *)

Definition create (w : World) (artisan : Artisan.t)
  : result (gmap string pyval) * list effect :=
  run tt (create_artisan w artisan).

Definition sample_artisan : Artisan.t :=
  Artisan.Make "Asha" "pottery" "Jaipur" None None (Some []) None None false.

(** Webhook configured, store down. *)
Definition world_rejecting : World :=
  MkWorld with_webhook None failing_store
    (fun _ _ _ => Raises (PyException "Exception" "Database not available"))
    (Returns tt) (fun _ _ _ => Returns (MkResponse 200)) (Returns tt) NEW_YEAR.

(** The [bson] package cannot be imported. *)
Definition world_without_bson : World :=
  MkWorld ∅ None accepting_store
    (fun _ _ _ => Returns [ by_object_id; by_string_id ])
    (Returns tt) (fun _ _ _ => Returns (MkResponse 200))
    (Raises (PyException "ModuleNotFoundError" "No module named 'bson'"))
    NEW_YEAR.

Definition twelve_collections : list string :=
  [ "artisan"; "registration"; "event"; "c04"; "c05"; "c06";
    "c07"; "c08"; "c09"; "c10"; "c11"; "c12" ].

(** A connected store that lists twelve collections. *)
Definition world_connected : World :=
  MkWorld (<["DATABASE_URL" := "mongodb://db.example:27017"]> ∅)
    (Some (MkDatabase (Some "crafts") (Returns twelve_collections)))
    accepting_store (fun _ _ _ => Returns [])
    (Returns tt) (fun _ _ _ => Returns (MkResponse 200)) (Returns tt) NEW_YEAR.

(** The keys of the diagnostic object. *)
Definition diagnostic_keys : gset string :=
  list_to_set
    [ "backend"; "database"; "database_url"; "database_name";
      "connection_status"; "collections" ].

(** The keys of an event document. *)
Definition event_keys : gset string := list_to_set [ "name"; "meta"; "ts" ].

(** The keys of a registration response. *)
Definition response_keys : gset string :=
  list_to_set [ "ok"; "id"; "forwarded"; "forward_status" ].


(** The same world with another [name] attribute on the store handle. *)
Definition rename_db (name : option string) (w : World) : World :=
  MkWorld (environ w)
    (match db w with
     | Some d => Some (MkDatabase name (list_collection_names d))
     | None => None
     end)
    (create_document w) (get_documents w) (import_requests w)
    (requests_post w) (import_bson w) (utcnow w).

(** * Properties *)

(** ** The monad *)

Lemma bind_ret {L A B} (a : A) (k : A -> M L B) s : bind (ret a) k s = k a s.
Proof. reflexivity. Qed.

Lemma bind_raise {L A B} (e : exn) (k : A -> M L B) s :
  bind (raise e) k s = (Raises e, s).
Proof. reflexivity. Qed.

Lemma try_except_ret {L A} (a : A) (h : exn -> M L A) s :
  try_except (ret a) h s = (Returns a, s).
Proof. reflexivity. Qed.

(** The handler of a [try] runs in the frame the body left behind. *)
Lemma try_except_after_assign {L A} (f : L -> L) (e : exn) (h : exn -> M L A) s :
  try_except (assign f ;; raise e) h s = h e (Frame (f (locals s)) (trace s)).
Proof. reflexivity. Qed.

(** An unbound local raises on use. *)
Lemma var_unbound {L A} name (proj : L -> option A) s :
  proj (locals s) = None -> var name proj s = (Raises (UnboundLocalError name), s).
Proof. intros H. unfold var. rewrite H. reflexivity. Qed.

(** Unfolds one run of a handler down to the answers of its collaborators. *)
Ltac run_handler :=
  unfold run, bind, try_except, call, lift, assign, var, ret, raise; simpl.

(** ** Registration: what one request does, case by case *)

Lemma register_store_failure w payload e :
  create_document w "registration" (OfRegistration payload) = Raises e ->
  register w payload =
    (Raises (HTTPException 500 ("DB error: " ++ str_exn e)), [insert_of payload]).
Proof.
  intros Hdb.
  unfold register, register_artisan. run_handler. rewrite Hdb. reflexivity.
Qed.

Lemma register_not_configured w payload reg_id :
  create_document w "registration" (OfRegistration payload) = Returns reg_id ->
  configured w = false ->
  register w payload =
    (Returns (register_response reg_id false VNone), [insert_of payload]).
Proof.
  intros Hdb Hcfg. unfold configured, WEBHOOK_VAR in Hcfg.
  unfold register, register_artisan. run_handler.
  rewrite Hdb. simpl. rewrite Hcfg. reflexivity.
Qed.

Lemma register_import_failure w payload reg_id e :
  create_document w "registration" (OfRegistration payload) = Returns reg_id ->
  configured w = true ->
  import_requests w = Raises e ->
  register w payload =
    (Returns (register_response reg_id false (error_status e)), [insert_of payload]).
Proof.
  intros Hdb Hcfg Himp. unfold configured, WEBHOOK_VAR in Hcfg.
  unfold register, register_artisan. run_handler.
  rewrite Hdb. simpl. rewrite Hcfg. simpl. rewrite Himp. reflexivity.
Qed.

Lemma register_post_completes w payload reg_id u r :
  create_document w "registration" (OfRegistration payload) = Returns reg_id ->
  configured w = true ->
  import_requests w = Returns u ->
  requests_post w (webhook_url w) (outbound w payload reg_id) 10 = Returns r ->
  register w payload =
    (Returns (register_response reg_id (ok r) (VInt (status_code r))),
     [insert_of payload; post_of w payload reg_id]).
Proof.
  intros Hdb Hcfg Himp Hpost. unfold configured, WEBHOOK_VAR in Hcfg.
  unfold webhook_url, WEBHOOK_VAR in Hpost.
  unfold register, register_artisan. run_handler.
  rewrite Hdb. simpl. rewrite Hcfg. simpl. rewrite Himp. simpl.
  rewrite Hpost. reflexivity.
Qed.

Lemma register_post_raises w payload reg_id u e :
  create_document w "registration" (OfRegistration payload) = Returns reg_id ->
  configured w = true ->
  import_requests w = Returns u ->
  requests_post w (webhook_url w) (outbound w payload reg_id) 10 = Raises e ->
  register w payload =
    (Returns (register_response reg_id false (error_status e)),
     [insert_of payload; post_of w payload reg_id]).
Proof.
  intros Hdb Hcfg Himp Hpost. unfold configured, WEBHOOK_VAR in Hcfg.
  unfold webhook_url, WEBHOOK_VAR in Hpost.
  unfold register, register_artisan. run_handler.
  rewrite Hdb. simpl. rewrite Hcfg. simpl. rewrite Himp. simpl.
  rewrite Hpost. reflexivity.
Qed.

(** The response of a registration that went through always says [ok]. *)
Lemma register_response_fields reg_id forwarded status :
  register_response reg_id forwarded status !! "ok" = Some (VBool true) /\
  register_response reg_id forwarded status !! "id" = Some (VStr reg_id) /\
  register_response reg_id forwarded status !! "forwarded" = Some (VBool forwarded) /\
  register_response reg_id forwarded status !! "forward_status" = Some status.
Proof. repeat split; reflexivity. Qed.

(** Once the store has accepted the record, the request answers with a
    response dict whatever happens to the forwarding, and the store is
    called exactly once, first. *)
Lemma register_accepted w payload reg_id :
  create_document w "registration" (OfRegistration payload) = Returns reg_id ->
  exists forwarded status rest,
    register w payload =
      (Returns (register_response reg_id forwarded status), insert_of payload :: rest) /\
    (rest = [] \/ (configured w = true /\ rest = [post_of w payload reg_id])).
Proof.
  intros Hdb.
  destruct (configured w) eqn:Hcfg.
  - destruct (import_requests w) as [u|e] eqn:Himp.
    + destruct (requests_post w (webhook_url w) (outbound w payload reg_id) 10)
        as [r|e] eqn:Hpost.
      * exists (ok r), (VInt (status_code r)), [post_of w payload reg_id].
        split; [ eapply register_post_completes; eauto | right; auto ].
      * exists false, (error_status e), [post_of w payload reg_id].
        split; [ eapply register_post_raises; eauto | right; auto ].
    + exists false, (error_status e), [].
      split; [ eapply register_import_failure; eauto | left; auto ].
  - exists false, VNone, [].
    split; [ eapply register_not_configured; eauto | left; auto ].
Qed.

(** Every call of a registration request, in all cases. *)
Lemma register_trace w payload :
  snd (register w payload) = [insert_of payload] \/
  exists reg_id,
    create_document w "registration" (OfRegistration payload) = Returns reg_id /\
    configured w = true /\
    snd (register w payload) = [insert_of payload; post_of w payload reg_id].
Proof.
  destruct (create_document w "registration" (OfRegistration payload))
    as [reg_id|e] eqn:Hdb.
  - destruct (register_accepted w payload reg_id Hdb)
      as (fwd & st & rest & Hrun & [-> | [Hcfg ->]]); rewrite Hrun; simpl.
    + left; reflexivity.
    + right; exists reg_id; auto.
  - left. rewrite (register_store_failure w payload e Hdb). reflexivity.
Qed.

(** *** The outbound payload *)

Lemma model_dump_dom payload :
  dom (Registration.model_dump payload) = Registration.fields.
Proof.
  unfold Registration.model_dump, Registration.fields.
  rewrite dom_list_to_map_L. reflexivity.
Qed.

Lemma outbound_dom w payload reg_id :
  dom (outbound w payload reg_id) = Registration.fields ∪ provenance_keys.
Proof.
  unfold outbound. rewrite !dom_insert_L, model_dump_dom.
  unfold provenance_keys. set_solver.
Qed.

Lemma outbound_keeps_fields w payload reg_id k :
  k ∈ Registration.fields ->
  outbound w payload reg_id !! k = Registration.model_dump payload !! k.
Proof.
  unfold Registration.fields. set_unfold.
  intros Hk. unfold outbound.
  rewrite !lookup_insert_ne; [ reflexivity | | | ];
    intros <-; repeat (destruct Hk as [Hk|Hk]; [ discriminate Hk | ]); exact Hk.
Qed.

Lemma outbound_provenance w payload reg_id :
  outbound w payload reg_id !! "_source" = Some (VStr "website") /\
  outbound w payload reg_id !! "_received_at" = Some (VStr (isoformat (utcnow w))) /\
  outbound w payload reg_id !! "_registration_id" = Some (VStr reg_id).
Proof. repeat split; reflexivity. Qed.


(** ** Registration: the claims *)

(** C1, as stated, fails: a forwarding POST that completes with status 304
    (not 2xx) has [r.ok] true, so the handler reports [forwarded = True]. *)
Lemma non_2xx_reported_unforwarded_fails :
  ~ non_2xx_reported_unforwarded (world_answering 304) sample_registration.
Proof.
  intros claim.
  specialize (claim "r1" tt (MkResponse 304) eq_refl eq_refl eq_refl eq_refl).
  assert (Hnon : non_2xx (MkResponse 304)) by (unfold non_2xx; simpl; lia).
  specialize (claim Hnon).
  apply (f_equal (fun x => match x with
                           | Returns d => d !! "forwarded"
                           | Raises _ => None
                           end)) in claim.
  vm_compute in claim. discriminate claim.
Qed.

(** C1, amended: when a forwarding URL is configured and the POST completes
    with a status that [requests] counts as a failure (400..599), the handler
    returns [ok = True], the id the store assigned, [forwarded = False] and
    the remote status code as [forward_status]. *)
Theorem rejected_forward_reported w payload reg_id u r :
  configured w = true ->
  create_document w "registration" (OfRegistration payload) = Returns reg_id ->
  import_requests w = Returns u ->
  requests_post w (webhook_url w) (outbound w payload reg_id) 10 = Returns r ->
  rejected r ->
  fst (register w payload) =
    Returns (register_response reg_id false (VInt (status_code r))).
Proof.
  intros Hcfg Hdb Himp Hpost Hrej.
  rewrite (register_post_completes w payload reg_id u r Hdb Hcfg Himp Hpost).
  simpl. f_equal. f_equal.
  unfold ok, rejected in *.
  destruct (400 <=? status_code r) eqn:Hlo; destruct (status_code r <? 600) eqn:Hhi;
    simpl; try reflexivity; lia.
Qed.

Lemma rejected_forward_reported_witness :
  fst (register (world_answering 503) sample_registration) =
    Returns (register_response "r1" false (VInt 503)).
Proof.
  apply (rejected_forward_reported (world_answering 503) sample_registration
           "r1" tt (MkResponse 503)).
  - reflexivity.
  - reflexivity.
  - reflexivity.
  - reflexivity.
  - unfold rejected; simpl; lia.
Defined.

(** Any other status, 304 for one, leaves [r.ok] true and is reported as
    forwarded. *)
Lemma unrejected_forward_reported w payload reg_id u r :
  configured w = true ->
  create_document w "registration" (OfRegistration payload) = Returns reg_id ->
  import_requests w = Returns u ->
  requests_post w (webhook_url w) (outbound w payload reg_id) 10 = Returns r ->
  ~ rejected r ->
  fst (register w payload) =
    Returns (register_response reg_id true (VInt (status_code r))).
Proof.
  intros Hcfg Hdb Himp Hpost Hrej.
  rewrite (register_post_completes w payload reg_id u r Hdb Hcfg Himp Hpost).
  simpl. f_equal. f_equal.
  unfold ok, rejected in *.
  destruct (400 <=? status_code r) eqn:Hlo; destruct (status_code r <? 600) eqn:Hhi;
    simpl; try reflexivity; lia.
Qed.

(** C2: with no forwarding URL configured the handler makes no outbound POST;
    the record is handed to the store, and when the store accepts it the
    response is [ok = True], [forwarded = False], [forward_status = None]. *)
Theorem unconfigured_forward_skipped w payload :
  configured w = false ->
  Forall (fun e => is_post e = false) (snd (register w payload)) /\
  head (snd (register w payload)) = Some (insert_of payload) /\
  forall reg_id,
    create_document w "registration" (OfRegistration payload) = Returns reg_id ->
    register w payload =
      (Returns (register_response reg_id false VNone), [insert_of payload]) /\
    register_response reg_id false VNone !! "ok" = Some (VBool true) /\
    register_response reg_id false VNone !! "forwarded" = Some (VBool false) /\
    register_response reg_id false VNone !! "forward_status" = Some VNone.
Proof.
  intros Hcfg.
  destruct (register_trace w payload) as [Htr | (reg_id & _ & Hyes & _)];
    [ | congruence ].
  rewrite Htr. repeat split.
  - repeat constructor.
  - apply register_not_configured; assumption.
Qed.

Lemma unconfigured_forward_skipped_witness :
  register world_plain sample_registration =
    (Returns (register_response "r1" false VNone), [insert_of sample_registration]).
Proof.
  destruct (unconfigured_forward_skipped world_plain sample_registration eq_refl)
    as (_ & _ & H).
  destruct (H "r1" eq_refl) as [Hrun _].
  exact Hrun.
Defined.

(** C4: a registration with [consent = False] is handled like any other: it
    is written to the [registration] collection, and once the store has
    accepted it the handler returns [ok = True] with the new id; the only
    refusal is the 500 of a store that raises. *)
Theorem consent_false_accepted w payload :
  Registration.consent payload = false ->
  head (snd (register w payload)) = Some (insert_of payload) /\
  match create_document w "registration" (OfRegistration payload) with
  | Returns reg_id =>
      exists resp,
        fst (register w payload) = Returns resp /\
        resp !! "ok" = Some (VBool true) /\
        resp !! "id" = Some (VStr reg_id)
  | Raises e =>
      fst (register w payload) =
        Raises (HTTPException 500 ("DB error: " ++ str_exn e))
  end.
Proof.
  intros _.
  destruct (create_document w "registration" (OfRegistration payload))
    as [reg_id|e] eqn:Hdb.
  - destruct (register_accepted w payload reg_id Hdb)
      as (fwd & st & rest & Hrun & _).
    rewrite Hrun. split; [ reflexivity | ].
    exists (register_response reg_id fwd st). repeat split.
  - rewrite (register_store_failure w payload e Hdb). split; reflexivity.
Qed.

Lemma consent_false_accepted_witness :
  exists resp,
    fst (register world_plain sample_registration) = Returns resp /\
    resp !! "ok" = Some (VBool true) /\
    resp !! "id" = Some (VStr "r1").
Proof.
  destruct (consent_false_accepted world_plain sample_registration eq_refl)
    as [_ H].
  exact H.
Defined.

(** C5: with a forwarding URL configured, whatever the handler posts goes to
    that URL with timeout 10 and carries every field of the registration
    unchanged plus exactly the keys [_source], [_received_at] (the ISO text
    of the current time) and [_registration_id] (the id the store returned);
    at most one POST is made, and exactly one once the store has accepted
    the record and [requests] is importable. *)
Theorem forwarded_payload_shape w payload :
  configured w = true ->
  (length (filter (fun e => is_post e = true) (snd (register w payload))) <= 1)%nat /\
  (forall url json timeout,
      HttpPost url json timeout ∈ snd (register w payload) ->
      url = webhook_url w /\ timeout = 10 /\
      dom json = Registration.fields ∪ provenance_keys /\
      (forall k, k ∈ Registration.fields ->
                 json !! k = Registration.model_dump payload !! k) /\
      json !! "_received_at" = Some (VStr (isoformat (utcnow w))) /\
      exists reg_id,
        create_document w "registration" (OfRegistration payload) = Returns reg_id /\
        json !! "_registration_id" = Some (VStr reg_id)) /\
  (forall reg_id u,
      create_document w "registration" (OfRegistration payload) = Returns reg_id ->
      import_requests w = Returns u ->
      snd (register w payload) = [insert_of payload; post_of w payload reg_id]).
Proof.
  intros Hcfg. split; [ | split ].
  - destruct (register_trace w payload) as [Htr | (reg_id & _ & _ & Htr)];
      rewrite Htr; simpl; lia.
  - intros url json timeout Hin.
    destruct (register_trace w payload) as [Htr | (reg_id & Hdb & _ & Htr)];
      rewrite Htr in Hin.
    + apply list_elem_of_singleton in Hin. discriminate Hin.
    + apply elem_of_cons in Hin as [Hin | Hin]; [ discriminate Hin | ].
      apply list_elem_of_singleton in Hin.
      unfold post_of in Hin. injection Hin as -> -> ->.
      split; [ reflexivity | ]. split; [ reflexivity | ].
      split; [ apply outbound_dom | ].
      split; [ intros k Hk; apply outbound_keeps_fields, Hk | ].
      split; [ reflexivity | ].
      exists reg_id. split; [ exact Hdb | reflexivity ].
  - intros reg_id u Hdb Himp.
    destruct (requests_post w (webhook_url w) (outbound w payload reg_id) 10)
      as [r|e] eqn:Hpost.
    + rewrite (register_post_completes w payload reg_id u r Hdb Hcfg Himp Hpost).
      reflexivity.
    + rewrite (register_post_raises w payload reg_id u e Hdb Hcfg Himp Hpost).
      reflexivity.
Qed.

Lemma forwarded_payload_shape_witness :
  snd (register (world_answering 200) sample_registration) =
    [ insert_of sample_registration;
      post_of (world_answering 200) sample_registration "r1" ].
Proof.
  destruct (forwarded_payload_shape (world_answering 200) sample_registration eq_refl)
    as (_ & _ & H).
  exact (H "r1" tt eq_refl eq_refl).
Defined.



(** C9: in every payload the handler posts, [_source] is the string
    [website], while [source] still carries the registration's own value. *)
Theorem provenance_source_is_website w payload url json timeout :
  HttpPost url json timeout ∈ snd (register w payload) ->
  json !! "_source" = Some (VStr "website") /\
  json !! "source" = Some (opt_str (Registration.source payload)).
Proof.
  intros Hin.
  destruct (register_trace w payload) as [Htr | (reg_id & _ & _ & Htr)];
    rewrite Htr in Hin.
  - apply list_elem_of_singleton in Hin. discriminate Hin.
  - apply elem_of_cons in Hin as [Hin | Hin]; [ discriminate Hin | ].
    apply list_elem_of_singleton in Hin.
    unfold post_of in Hin. injection Hin as -> -> ->.
    split; reflexivity.
Qed.

Lemma provenance_source_is_website_witness :
  outbound (world_answering 200) sample_registration "r1" !! "_source"
    = Some (VStr "website") /\
  outbound (world_answering 200) sample_registration "r1" !! "source"
    = Some (VStr "partner").
Proof.
  apply (provenance_source_is_website (world_answering 200) sample_registration
           (webhook_url (world_answering 200))
           (outbound (world_answering 200) sample_registration "r1") 10).
  vm_compute register. apply elem_of_cons. right. apply elem_of_cons. left.
  reflexivity.
Defined.

(** ** Event tracking *)

(** C3: the event handler returns [{ok: True}] for every event and every
    behaviour of the store, a store write that raises included. *)
Theorem track_event_always_ok w ev :
  fst (track w ev) = Returns (list_to_map [ ("ok", VBool true) ]).
Proof.
  unfold track, track_event. run_handler.
  destruct (create_document w "event" (OfDict (event_document w ev)));
    reflexivity.
Qed.

(** The same, at a store that is down. *)
Example track_event_store_down :
  fst (track world_store_down sample_event) = Returns (list_to_map [ ("ok", VBool true) ]).
Proof. reflexivity. Qed.

(** C10: when the body has no [meta] (omitted or null), the one document
    handed to the store has [meta] equal to the empty dict, the caller's
    [name], and [ts] the time the handler read from the clock. *)
Theorem event_meta_defaults_to_empty w ev :
  Event.meta ev = None ->
  snd (track w ev) =
    [ StoreInsert "event"
        (OfDict (list_to_map
                   [ ("name", VStr (Event.name ev));
                     ("meta", VDict ∅);
                     ("ts", VDatetime (utcnow w)) ])) ].
Proof.
  intros Hmeta.
  unfold track, track_event, event_document. run_handler. rewrite Hmeta. simpl.
  destruct (create_document w "event" _); reflexivity.
Qed.

Lemma event_meta_defaults_to_empty_witness :
  snd (track world_plain sample_event) =
    [ StoreInsert "event"
        (OfDict (list_to_map
                   [ ("name", VStr "page_view");
                     ("meta", VDict ∅);
                     ("ts", VDatetime NEW_YEAR) ])) ].
Proof.
  apply (event_meta_defaults_to_empty world_plain sample_event).
  reflexivity.
Defined.

(** ** Listing artisans *)

Lemma normalize_id_object_id d hex :
  d !! "_id" = Some (VObjectId hex) ->
  normalize_id d !! "_id" = None /\
  normalize_id d !! "id" = Some (VStr hex) /\
  forall k, k <> "_id" -> k <> "id" -> normalize_id d !! k = d !! k.
Proof.
  intros Hid. unfold normalize_id. rewrite Hid.
  split; [ | split ].
  - rewrite lookup_insert_ne by discriminate. apply lookup_delete_eq.
  - apply lookup_insert_eq.
  - intros k Hk1 Hk2.
    rewrite lookup_insert_ne by congruence.
    apply lookup_delete_ne. congruence.
Qed.

Lemma normalize_id_other d :
  (forall hex, d !! "_id" <> Some (VObjectId hex)) ->
  normalize_id d = d.
Proof.
  intros Hno. unfold normalize_id.
  destruct (d !! "_id") as [[]|] eqn:Hid; try reflexivity.
  exfalso. eapply Hno. reflexivity.
Qed.

Lemma listing_normal w category region featured limit found u :
  get_documents w "artisan" (artisan_filter category region featured) limit
    = Returns found ->
  import_bson w = Returns u ->
  listing w category region featured limit =
    (Returns (normalize_id <$> found),
     [StoreFind "artisan" (artisan_filter category region featured) limit]).
Proof.
  intros Hget Himp.
  unfold listing, list_artisans. run_handler.
  rewrite Hget. simpl. rewrite Himp. reflexivity.
Qed.

(** Without [bson] the except branch returns the documents as the store
    gave them. *)
Lemma listing_without_bson w category region featured limit found e :
  get_documents w "artisan" (artisan_filter category region featured) limit
    = Returns found ->
  import_bson w = Raises e ->
  fst (listing w category region featured limit) = Returns found.
Proof.
  intros Hget Himp.
  unfold listing, list_artisans. run_handler.
  rewrite Hget. simpl. rewrite Himp. reflexivity.
Qed.

(** When the store read raises, [docs] is still unbound in the except
    branch, and the handler raises instead of returning. *)
Lemma listing_store_failure w category region featured limit e :
  get_documents w "artisan" (artisan_filter category region featured) limit
    = Raises e ->
  fst (listing w category region featured limit) = Raises (UnboundLocalError "docs").
Proof.
  intros Hget.
  unfold listing, list_artisans. run_handler. rewrite Hget. reflexivity.
Qed.

(** C7, as stated, fails: a stored record whose [_id] is a plain string is
    returned with [_id] still in it and no [id]. *)
Lemma listing_always_normalized_fails :
  ~ listing_always_normalized world_mixed_ids None None None 24.
Proof.
  intros claim.
  specialize (claim [normalize_id by_object_id; by_string_id] eq_refl).
  apply Forall_cons in claim as [_ claim].
  apply Forall_cons in claim as [[Hid _] _].
  vm_compute in Hid. discriminate Hid.
Qed.

(** C7, amended: when the store read returns and [bson] is importable, the
    handler returns one record per stored record, in order; a record whose
    [_id] is an [ObjectId] comes back without [_id] and with [id] holding its
    string rendering, its other keys unchanged; a record whose [_id] is
    absent or of another type comes back as stored. *)
Theorem listing_normalizes_object_ids w category region featured limit found u :
  get_documents w "artisan" (artisan_filter category region featured) limit
    = Returns found ->
  import_bson w = Returns u ->
  exists out,
    fst (listing w category region featured limit) = Returns out /\
    length out = length found /\
    forall (i : nat) d, found !! i = Some d ->
      exists d', out !! i = Some d' /\
        match d !! "_id" with
        | Some (VObjectId hex) =>
            d' !! "_id" = None /\
            d' !! "id" = Some (VStr hex) /\
            forall k, k <> "_id" -> k <> "id" -> d' !! k = d !! k
        | _ => d' = d
        end.
Proof.
  intros Hget Himp.
  exists (normalize_id <$> found).
  rewrite (listing_normal w category region featured limit found u Hget Himp).
  split; [ reflexivity | ].
  split; [ apply length_fmap | ].
  intros i d Hi. exists (normalize_id d).
  split; [ rewrite list_lookup_fmap, Hi; reflexivity | ].
  destruct (d !! "_id") as [v|] eqn:Hid.
  - destruct v; try (apply normalize_id_other; intros h; rewrite Hid; congruence).
    apply normalize_id_object_id, Hid.
  - apply normalize_id_other. intros h. rewrite Hid. discriminate.
Qed.

Lemma listing_normalizes_object_ids_witness :
  exists out,
    fst (listing world_mixed_ids None None None 24) = Returns out /\
    length out = 2%nat /\
    forall (i : nat) d, [by_object_id; by_string_id] !! i = Some d ->
      exists d', out !! i = Some d' /\
        match d !! "_id" with
        | Some (VObjectId hex) =>
            d' !! "_id" = None /\
            d' !! "id" = Some (VStr hex) /\
            forall k, k <> "_id" -> k <> "id" -> d' !! k = d !! k
        | _ => d' = d
        end.
Proof.
  apply (listing_normalizes_object_ids world_mixed_ids None None None 24
           [by_object_id; by_string_id] tt).
  - reflexivity.
  - reflexivity.
Defined.

(** ** The diagnostic probe *)



(** The whole diagnostic object, in every case. *)
Lemma diagnose_response w :
  fst (diagnose w) =
    Returns (list_to_map
      [ ("backend", VStr RUNNING);
        ("database", VStr (database_status w));
        ("database_url", presence w "DATABASE_URL");
        ("database_name", presence w "DATABASE_NAME");
        ("connection_status",
           VStr (match db w with
                 | Some _ => "Connected"
                 | None => "Not Connected"
                 end));
        ("collections", VList (VStr <$> reported_collections w)) ]).
Proof.
  unfold diagnose, test_database, database_status, reported_collections.
  unfold set_response. run_handler.
  destruct (db w) as [d|]; simpl.
  - destruct (list_collection_names d) as [names|e]; reflexivity.
  - reflexivity.
Qed.


(** At a store that is down the probe still answers. *)
Example diagnose_store_down :
  exists resp,
    fst (diagnose world_store_down) = Returns resp /\
    resp !! "database" = Some (VStr (CONNECTED_BUT_ERROR ++ "no servers found")) /\
    resp !! "collections" = Some (VList []).
Proof. eexists. split; [ apply diagnose_response | split; reflexivity ]. Qed.

(** * Further properties of the handlers *)

(** ** Creating an artisan *)

(** X1: [create_artisan] makes exactly one store call, the insert of the
    artisan into the [artisan] collection; it returns [{ok: True, id}] with
    the id the store gave, and when the store raises it raises an HTTP 500
    whose detail is the store's message, whole and without prefix. *)
Theorem create_artisan_outcome w artisan :
  snd (create w artisan) = [StoreInsert "artisan" (OfArtisan artisan)] /\
  match create_document w "artisan" (OfArtisan artisan) with
  | Returns inserted_id =>
      fst (create w artisan) =
        Returns (list_to_map [ ("ok", VBool true); ("id", VStr inserted_id) ])
  | Raises e =>
      fst (create w artisan) = Raises (HTTPException 500 (str_exn e))
  end.
Proof.
  unfold create, create_artisan. run_handler.
  destruct (create_document w "artisan" (OfArtisan artisan)); split; reflexivity.
Qed.

(** ** Registration, beyond the forwarding outcome *)

(** X2: when the store refuses the registration the handler raises an HTTP
    500 whose detail is [DB error: ] followed by the whole store message,
    and it posts nothing, a configured webhook or not. *)
Theorem store_failure_aborts_registration w payload e :
  create_document w "registration" (OfRegistration payload) = Raises e ->
  fst (register w payload) =
    Raises (HTTPException 500 ("DB error: " ++ str_exn e)) /\
  Forall (fun ev => is_post ev = false) (snd (register w payload)).
Proof.
  intros Hdb. rewrite (register_store_failure w payload e Hdb).
  split; [ reflexivity | repeat constructor ].
Qed.

Lemma store_failure_aborts_registration_witness :
  fst (register world_rejecting sample_registration) =
    Raises (HTTPException 500 "DB error: Database not available") /\
  Forall (fun ev => is_post ev = false)
         (snd (register world_rejecting sample_registration)).
Proof.
  apply (store_failure_aborts_registration world_rejecting sample_registration
           (PyException "Exception" "Database not available")).
  reflexivity.
Defined.



(** X4: when the POST completes, [forward_status] is the remote status code
    and [forwarded] is true exactly when that status is outside 400..599. *)
Theorem forwarded_flag_follows_status w payload reg_id u r :
  configured w = true ->
  create_document w "registration" (OfRegistration payload) = Returns reg_id ->
  import_requests w = Returns u ->
  requests_post w (webhook_url w) (outbound w payload reg_id) 10 = Returns r ->
  exists resp,
    fst (register w payload) = Returns resp /\
    resp !! "forward_status" = Some (VInt (status_code r)) /\
    (resp !! "forwarded" = Some (VBool true) <-> ~ rejected r) /\
    (resp !! "forwarded" = Some (VBool false) <-> rejected r).
Proof.
  intros Hcfg Hdb Himp Hpost.
  rewrite (register_post_completes w payload reg_id u r Hdb Hcfg Himp Hpost).
  eexists. split; [ reflexivity | ]. split; [ reflexivity | ].
  change (register_response reg_id (ok r) (VInt (status_code r)) !! "forwarded")
    with (Some (VBool (ok r))).
  unfold ok, rejected.
  destruct (400 <=? status_code r) eqn:Hlo; destruct (status_code r <? 600) eqn:Hhi;
    simpl; split; split; intros H; try reflexivity; try discriminate H; try lia;
    exfalso; apply H; lia.
Qed.

Lemma forwarded_flag_follows_status_witness :
  exists resp,
    fst (register (world_answering 201) sample_registration) = Returns resp /\
    resp !! "forward_status" = Some (VInt 201) /\
    (resp !! "forwarded" = Some (VBool true) <-> ~ rejected (MkResponse 201)) /\
    (resp !! "forwarded" = Some (VBool false) <-> rejected (MkResponse 201)).
Proof.
  apply (forwarded_flag_follows_status (world_answering 201) sample_registration
           "r1" tt (MkResponse 201)).
  - reflexivity.
  - reflexivity.
  - reflexivity.
  - reflexivity.
Defined.

(** X5: the handler attempts a POST exactly when the webhook variable is set
    to a non-empty string, the store has accepted the record and [requests]
    can be imported; an empty value counts as not configured. *)
Theorem post_attempted_iff w payload :
  (exists ev, ev ∈ snd (register w payload) /\ is_post ev = true) <->
  (exists url, getenv w "GOOGLE_SHEETS_WEBHOOK_URL" = Some url /\ url <> "") /\
  (exists reg_id,
      create_document w "registration" (OfRegistration payload) = Returns reg_id) /\
  (exists u, import_requests w = Returns u).
Proof.
  assert (Hcfg_iff : configured w = true <->
            exists url, getenv w "GOOGLE_SHEETS_WEBHOOK_URL" = Some url /\ url <> "").
  { unfold configured, WEBHOOK_VAR, truthy.
    destruct (getenv w "GOOGLE_SHEETS_WEBHOOK_URL") as [url|].
    - destruct (String.eqb_spec url ""); simpl; split.
      + discriminate.
      + intros (url' & [= <-] & Hne). contradiction.
      + intros _. exists url. auto.
      + reflexivity.
    - split; [ discriminate | intros (url & H & _); discriminate H ]. }
  rewrite <- Hcfg_iff. clear Hcfg_iff.
  split.
  - intros (ev & Hin & Hpost).
    destruct (create_document w "registration" (OfRegistration payload))
      as [reg_id|e] eqn:Hdb.
    + destruct (configured w) eqn:Hcfg.
      * destruct (import_requests w) as [u|e] eqn:Himp.
        -- eauto.
        -- rewrite (register_import_failure w payload reg_id e Hdb Hcfg Himp) in Hin.
           apply list_elem_of_singleton in Hin. subst ev. discriminate Hpost.
      * rewrite (register_not_configured w payload reg_id Hdb Hcfg) in Hin.
        apply list_elem_of_singleton in Hin. subst ev. discriminate Hpost.
    + rewrite (register_store_failure w payload e Hdb) in Hin.
      apply list_elem_of_singleton in Hin. subst ev. discriminate Hpost.
  - intros (Hcfg & (reg_id & Hdb) & (u & Himp)).
    exists (post_of w payload reg_id). split; [ | reflexivity ].
    destruct (requests_post w (webhook_url w) (outbound w payload reg_id) 10)
      as [r|e] eqn:Hpost.
    + rewrite (register_post_completes w payload reg_id u r Hdb Hcfg Himp Hpost).
      simpl. set_solver.
    + rewrite (register_post_raises w payload reg_id u e Hdb Hcfg Himp Hpost).
      simpl. set_solver.
Qed.

(** The five ways a registration request can go. *)
Lemma register_cases w payload :
  (exists e,
      create_document w "registration" (OfRegistration payload) = Raises e /\
      register w payload =
        (Raises (HTTPException 500 ("DB error: " ++ str_exn e)), [insert_of payload])) \/
  (exists reg_id,
      create_document w "registration" (OfRegistration payload) = Returns reg_id /\
      ((configured w = false /\
        register w payload =
          (Returns (register_response reg_id false VNone), [insert_of payload])) \/
       (exists e,
           import_requests w = Raises e /\
           register w payload =
             (Returns (register_response reg_id false (error_status e)),
              [insert_of payload])) \/
       (exists r,
           requests_post w (webhook_url w) (outbound w payload reg_id) 10 = Returns r /\
           register w payload =
             (Returns (register_response reg_id (ok r) (VInt (status_code r))),
              [insert_of payload; post_of w payload reg_id])) \/
       (exists e,
           requests_post w (webhook_url w) (outbound w payload reg_id) 10 = Raises e /\
           register w payload =
             (Returns (register_response reg_id false (error_status e)),
              [insert_of payload; post_of w payload reg_id])))).
Proof.
  destruct (create_document w "registration" (OfRegistration payload))
    as [reg_id|e] eqn:Hdb.
  - right. exists reg_id. split; [ reflexivity | ].
    destruct (configured w) eqn:Hcfg.
    + destruct (import_requests w) as [u|e] eqn:Himp.
      * destruct (requests_post w (webhook_url w) (outbound w payload reg_id) 10)
          as [r|e] eqn:Hpost.
        -- right. right. left. exists r. split; [ reflexivity | ].
           eapply register_post_completes; eauto.
        -- right. right. right. exists e. split; [ reflexivity | ].
           eapply register_post_raises; eauto.
      * right. left. exists e. split; [ reflexivity | ].
        eapply register_import_failure; eauto.
    + left. split; [ reflexivity | ]. eapply register_not_configured; eauto.
  - left. exists e. split; [ reflexivity | ].
    apply register_store_failure, Hdb.
Qed.

(** X6: a response that says [forwarded = True] comes only from a request
    whose POST was made and completed with a status outside 400..599, and
    then [forward_status] is that status. *)
Theorem forwarded_only_after_post w payload resp :
  fst (register w payload) = Returns resp ->
  resp !! "forwarded" = Some (VBool true) ->
  exists reg_id r,
    requests_post w (webhook_url w) (outbound w payload reg_id) 10 = Returns r /\
    ~ rejected r /\
    resp !! "forward_status" = Some (VInt (status_code r)) /\
    snd (register w payload) = [insert_of payload; post_of w payload reg_id].
Proof.
  intros Hrun Hfwd.
  destruct (register_cases w payload)
    as [(e & _ & Heq)
       | (reg_id & _ & [(_ & Heq) | [(e & _ & Heq) | [(r & Hpost & Heq) | (e & _ & Heq)]]])];
    rewrite Heq in Hrun |- *; simpl in Hrun; try discriminate Hrun;
    injection Hrun as <-;
    try (change (Some (VBool false) = Some (VBool true)) in Hfwd; discriminate Hfwd).
  exists reg_id, r. split; [ exact Hpost | ].
  split; [ | split; reflexivity ].
  change (Some (VBool (ok r)) = Some (VBool true)) in Hfwd.
  injection Hfwd as Hok. unfold ok in Hok. unfold rejected.
  destruct (400 <=? status_code r) eqn:Hlo; destruct (status_code r <? 600) eqn:Hhi;
    simpl in Hok; try discriminate Hok; lia.
Qed.

Lemma forwarded_only_after_post_witness :
  exists reg_id r,
    requests_post (world_answering 200) (webhook_url (world_answering 200))
      (outbound (world_answering 200) sample_registration reg_id) 10 = Returns r /\
    ~ rejected r /\
    register_response "r1" true (VInt 200) !! "forward_status"
      = Some (VInt (status_code r)) /\
    snd (register (world_answering 200) sample_registration) =
      [ insert_of sample_registration;
        post_of (world_answering 200) sample_registration reg_id ].
Proof.
  apply (forwarded_only_after_post (world_answering 200) sample_registration
           (register_response "r1" true (VInt 200))).
  - reflexivity.
  - reflexivity.
Defined.






Lemma opt_str_inj o1 o2 : opt_str o1 = opt_str o2 -> o1 = o2.
Proof. destruct o1, o2; simpl; congruence. Qed.

(** X9: the outbound payload loses nothing: two payloads built at the same
    time are equal only for the same registration and the same id. *)
Theorem outbound_injective w p1 p2 id1 id2 :
  outbound w p1 id1 = outbound w p2 id2 -> p1 = p2 /\ id1 = id2.
Proof.
  intros Heq.
  pose proof (f_equal (fun d => d !! "name") Heq) as Hname.
  pose proof (f_equal (fun d => d !! "craft_type") Heq) as Hcraft.
  pose proof (f_equal (fun d => d !! "location") Heq) as Hloc.
  pose proof (f_equal (fun d => d !! "phone") Heq) as Hphone.
  pose proof (f_equal (fun d => d !! "email") Heq) as Hemail.
  pose proof (f_equal (fun d => d !! "image1_base64") Heq) as Himg1.
  pose proof (f_equal (fun d => d !! "image2_base64") Heq) as Himg2.
  pose proof (f_equal (fun d => d !! "consent") Heq) as Hconsent.
  pose proof (f_equal (fun d => d !! "source") Heq) as Hsource.
  pose proof (f_equal (fun d => d !! "_registration_id") Heq) as Hid.
  clear Heq.
  destruct p1 as [n1 c1 l1 ph1 e1 i1 j1 k1 s1].
  destruct p2 as [n2 c2 l2 ph2 e2 i2 j2 k2 s2].
  change (Some (VStr n1) = Some (VStr n2)) in Hname.
  change (Some (VStr c1) = Some (VStr c2)) in Hcraft.
  change (Some (VStr l1) = Some (VStr l2)) in Hloc.
  change (Some (VStr ph1) = Some (VStr ph2)) in Hphone.
  change (Some (opt_str e1) = Some (opt_str e2)) in Hemail.
  change (Some (opt_str i1) = Some (opt_str i2)) in Himg1.
  change (Some (opt_str j1) = Some (opt_str j2)) in Himg2.
  change (Some (VBool k1) = Some (VBool k2)) in Hconsent.
  change (Some (opt_str s1) = Some (opt_str s2)) in Hsource.
  change (Some (VStr id1) = Some (VStr id2)) in Hid.
  injection Hname as ->. injection Hcraft as ->. injection Hloc as ->.
  injection Hphone as ->. injection Hconsent as ->. injection Hid as ->.
  injection Hemail as Hemail. injection Himg1 as Himg1.
  injection Himg2 as Himg2. injection Hsource as Hsource.
  apply opt_str_inj in Hemail, Himg1, Himg2, Hsource. subst.
  split; reflexivity.
Qed.

Lemma outbound_injective_witness :
  sample_registration = sample_registration /\ "r1" = "r1".
Proof.
  apply (outbound_injective world_plain sample_registration sample_registration
           "r1" "r1").
  reflexivity.
Defined.

(** ** Event tracking, beyond the response *)

Lemma or_empty_default meta : or_empty meta = default ∅ meta.
Proof.
  destruct meta as [m|]; simpl; [ | reflexivity ].
  case_bool_decide as Hsize; [ | reflexivity ].
  symmetry. apply map_size_empty_inv, Hsize.
Qed.

(** X10: for every event the handler makes exactly one store call, an insert
    into the [event] collection of a dict with the keys [name], [meta] and
    [ts] only; [meta] is always a dict, the caller's own when one was given. *)
Theorem event_written_once w ev :
  exists doc,
    snd (track w ev) = [StoreInsert "event" (OfDict doc)] /\
    dom doc = event_keys /\
    doc !! "name" = Some (VStr (Event.name ev)) /\
    doc !! "ts" = Some (VDatetime (utcnow w)) /\
    doc !! "meta" = Some (VDict (default ∅ (Event.meta ev))).
Proof.
  exists (event_document w ev). split; [ | split; [ | split; [ | split ] ] ].
  - unfold track, track_event. run_handler.
    destruct (create_document w "event" _); reflexivity.
  - unfold event_document, event_keys. rewrite dom_list_to_map_L. reflexivity.
  - reflexivity.
  - reflexivity.
  - rewrite <- or_empty_default. reflexivity.
Qed.

(** ** Listing artisans, beyond the identifiers *)

(** X11: the store filter has a [craft_type] (a [region]) entry exactly when
    the category (the region) is a non-empty string, a [featured] entry
    whenever the flag is given, [False] included, and no other key. *)
Theorem artisan_filter_lookup category region featured :
  artisan_filter category region featured !! "craft_type" =
    match category with
    | Some s => if String.eqb s "" then None else Some (VStr s)
    | None => None
    end /\
  artisan_filter category region featured !! "region" =
    match region with
    | Some s => if String.eqb s "" then None else Some (VStr s)
    | None => None
    end /\
  artisan_filter category region featured !! "featured" = VBool <$> featured /\
  dom (artisan_filter category region featured)
    ⊆ list_to_set [ "craft_type"; "region"; "featured" ].
Proof.
  unfold artisan_filter, truthy.
  destruct category as [c|]; destruct region as [r|]; destruct featured as [b|];
    try destruct (String.eqb c ""); try destruct (String.eqb r ""); simpl;
    (split; [ reflexivity | split; [ reflexivity | split; [ reflexivity | ] ] ]);
    rewrite ?dom_insert_L, ?dom_empty_L; set_unfold; tauto.
Qed.

(** X12: a listing request makes exactly one store call, whatever the store
    and [bson] do: the read of the [artisan] collection with the filter built
    from the query and the caller's limit unchanged. *)
Theorem listing_reads_once w category region featured limit :
  snd (listing w category region featured limit) =
    [StoreFind "artisan" (artisan_filter category region featured) limit].
Proof.
  unfold listing, list_artisans. run_handler.
  destruct (get_documents w "artisan" _ limit); simpl; [ | reflexivity ].
  destruct (import_bson w); reflexivity.
Qed.

(** X13: when the store read raises, the except branch finds [docs] unbound:
    the handler does not return, it raises [UnboundLocalError] in place of
    the store's error. *)
Theorem listing_read_failure_masked w category region featured limit e :
  get_documents w "artisan" (artisan_filter category region featured) limit
    = Raises e ->
  listing w category region featured limit =
    (Raises (UnboundLocalError "docs"),
     [StoreFind "artisan" (artisan_filter category region featured) limit]).
Proof.
  intros Hget. apply injective_projections.
  - apply (listing_store_failure w category region featured limit e Hget).
  - unfold listing, list_artisans. run_handler. rewrite Hget. reflexivity.
Qed.

Lemma listing_read_failure_masked_witness :
  listing world_store_down (Some "pottery") None None 24 =
    (Raises (UnboundLocalError "docs"),
     [StoreFind "artisan" (artisan_filter (Some "pottery") None None) 24]).
Proof.
  apply (listing_read_failure_masked world_store_down (Some "pottery") None None 24
           (PyException "Exception" "Database not available")).
  reflexivity.
Defined.

(** X14: when [bson] cannot be imported the handler still answers, with the
    records exactly as the store gave them: no [_id] is removed, no [id]
    added. *)
Theorem listing_raw_without_bson w category region featured limit found e :
  get_documents w "artisan" (artisan_filter category region featured) limit
    = Returns found ->
  import_bson w = Raises e ->
  listing w category region featured limit =
    (Returns found,
     [StoreFind "artisan" (artisan_filter category region featured) limit]).
Proof.
  intros Hget Himp. apply injective_projections.
  - apply (listing_without_bson w category region featured limit found e Hget Himp).
  - unfold listing, list_artisans. run_handler.
    rewrite Hget. simpl. rewrite Himp. reflexivity.
Qed.

Lemma listing_raw_without_bson_witness :
  listing world_without_bson None None None 24 =
    (Returns [ by_object_id; by_string_id ],
     [StoreFind "artisan" (artisan_filter None None None) 24]).
Proof.
  apply (listing_raw_without_bson world_without_bson None None None 24
           [ by_object_id; by_string_id ]
           (PyException "ModuleNotFoundError" "No module named 'bson'")).
  - reflexivity.
  - reflexivity.
Defined.

(** X15: normalising a record twice is normalising it once: after the first
    pass there is no [_id] left to convert. *)
Theorem normalize_id_idempotent d :
  normalize_id (normalize_id d) = normalize_id d.
Proof.
  destruct (d !! "_id") as [v|] eqn:Hid.
  - destruct v;
      try (rewrite (normalize_id_other d) by (intros h; rewrite Hid; congruence);
           apply normalize_id_other; intros h; rewrite Hid; congruence).
    destruct (normalize_id_object_id d hex Hid) as (Hgone & _ & _).
    apply normalize_id_other. intros h. rewrite Hgone. discriminate.
  - rewrite (normalize_id_other d) by (intros h; rewrite Hid; discriminate).
    apply normalize_id_other. intros h. rewrite Hid. discriminate.
Qed.

(** ** The diagnostic probe, beyond its masking *)

(** X16: with no store handle ([db is None]) the probe calls nothing and
    reports [Available but not initialized], [Not Connected] and no
    collection. *)
Theorem diagnose_uninitialised w :
  db w = None ->
  exists resp,
    diagnose w = (Returns resp, []) /\
    resp !! "database" = Some (VStr NOT_INITIALIZED) /\
    resp !! "connection_status" = Some (VStr "Not Connected") /\
    resp !! "collections" = Some (VList []).
Proof.
  intros Hdb. eexists. split.
  - apply injective_projections.
    + apply diagnose_response.
    + unfold diagnose, test_database, set_response. run_handler.
      rewrite Hdb. reflexivity.
  - unfold database_status, reported_collections. rewrite Hdb.
    repeat split.
Qed.

Lemma diagnose_uninitialised_witness :
  exists resp,
    diagnose world_plain = (Returns resp, []) /\
    resp !! "database" = Some (VStr NOT_INITIALIZED) /\
    resp !! "connection_status" = Some (VStr "Not Connected") /\
    resp !! "collections" = Some (VList []).
Proof.
  apply (diagnose_uninitialised world_plain).
  reflexivity.
Defined.

(** X17: with a store handle whose collections can be listed, the probe
    lists them once and reports [Connected & Working], [Connected] and the
    first ten names in the store's order. *)
Theorem diagnose_connected w d names :
  db w = Some d ->
  list_collection_names d = Returns names ->
  exists resp,
    diagnose w = (Returns resp, [StoreListCollections]) /\
    resp !! "database" = Some (VStr CONNECTED_WORKING) /\
    resp !! "connection_status" = Some (VStr "Connected") /\
    resp !! "collections" = Some (VList (VStr <$> take 10 names)).
Proof.
  intros Hdb Hnames. eexists. split.
  - apply injective_projections.
    + apply diagnose_response.
    + unfold diagnose, test_database, set_response. run_handler.
      rewrite Hdb. simpl. rewrite Hnames. reflexivity.
  - unfold database_status, reported_collections. rewrite Hdb, Hnames.
    repeat split.
Qed.

Lemma diagnose_connected_witness :
  exists resp,
    diagnose world_connected = (Returns resp, [StoreListCollections]) /\
    resp !! "database" = Some (VStr CONNECTED_WORKING) /\
    resp !! "connection_status" = Some (VStr "Connected") /\
    resp !! "collections" =
      Some (VList (VStr <$> [ "artisan"; "registration"; "event"; "c04"; "c05";
                              "c06"; "c07"; "c08"; "c09"; "c10" ])).
Proof.
  apply (diagnose_connected world_connected
           (MkDatabase (Some "crafts") (Returns twelve_collections))
           twelve_collections).
  - reflexivity.
  - reflexivity.
Defined.

(** X18: in every case the diagnostic object has exactly the six keys
    [backend], [database], [database_url], [database_name],
    [connection_status], [collections]; [connection_status] says [Connected]
    as soon as a store handle exists, a failing listing included; and the
    probe makes at most one store call, the listing, and no write or POST. *)
Theorem diagnose_object_shape w :
  exists resp,
    fst (diagnose w) = Returns resp /\
    dom resp = diagnostic_keys /\
    resp !! "backend" = Some (VStr RUNNING) /\
    resp !! "connection_status" =
      Some (VStr (match db w with
                  | Some _ => "Connected"
                  | None => "Not Connected"
                  end)) /\
    snd (diagnose w) =
      match db w with
      | Some _ => [StoreListCollections]
      | None => []
      end.
Proof.
  eexists. split; [ apply diagnose_response | ].
  split; [ rewrite dom_list_to_map_L; reflexivity | ].
  split; [ reflexivity | ]. split; [ reflexivity | ].
  unfold diagnose, test_database, set_response. run_handler.
  destruct (db w) as [d|]; simpl; [ | reflexivity ].
  destruct (list_collection_names d); reflexivity.
Qed.

(** ** Registration: failure and writes *)

(** X19: the handler returns a response exactly when the store accepted the
    record, and the response then has the four keys [ok], [id], [forwarded],
    [forward_status] with [ok = True] and the store's id; the only exception
    it raises is the HTTP 500 of a store failure, so no forwarding trouble
    ever fails the request. *)
Theorem registration_fails_only_on_store w payload :
  match fst (register w payload) with
  | Returns resp =>
      exists reg_id,
        create_document w "registration" (OfRegistration payload) = Returns reg_id /\
        dom resp = response_keys /\
        resp !! "ok" = Some (VBool true) /\
        resp !! "id" = Some (VStr reg_id)
  | Raises x =>
      exists e,
        create_document w "registration" (OfRegistration payload) = Raises e /\
        x = HTTPException 500 ("DB error: " ++ str_exn e)
  end.
Proof.
  destruct (create_document w "registration" (OfRegistration payload))
    as [reg_id|e] eqn:Hdb.
  - destruct (register_accepted w payload reg_id Hdb)
      as (fwd & st & rest & Hrun & _).
    rewrite Hrun. simpl. exists reg_id.
    split; [ reflexivity | ].
    split; [ unfold register_response; rewrite dom_list_to_map_L; reflexivity | ].
    split; reflexivity.
  - rewrite (register_store_failure w payload e Hdb). simpl.
    exists e. split; reflexivity.
Qed.

(** X20: every registration request writes to the store exactly once, as its
    first call, whatever the store answers and whatever happens to the
    forwarding: nothing is written twice and nothing after the POST. *)
Theorem registration_written_once w payload :
  exists rest,
    snd (register w payload) = insert_of payload :: rest /\
    Forall (fun ev => is_insert ev = false) rest.
Proof.
  destruct (register_trace w payload) as [Htr | (reg_id & _ & _ & Htr)];
    rewrite Htr.
  - exists []. split; [ reflexivity | constructor ].
  - exists [post_of w payload reg_id]. split; [ reflexivity | repeat constructor ].
Qed.

(** ** The diagnostic probe: what it cannot reveal *)

Lemma presence_set_iff w key :
  presence w key = VStr SET <->
  exists v, getenv w key = Some v /\ v <> "".
Proof.
  unfold presence, truthy.
  destruct (getenv w key) as [v|].
  - destruct (String.eqb_spec v ""); simpl; split.
    + discriminate.
    + intros (v' & [= <-] & Hne). contradiction.
    + intros _. exists v. auto.
    + reflexivity.
  - split; [ discriminate | intros (v & H & _); discriminate H ].
Qed.

(** X21: the probe reports [database_url] (and [database_name]) as [Set]
    exactly when the variable [DATABASE_URL] (and [DATABASE_NAME]) holds a
    non-empty string; a variable set to the empty string is [Not Set]. *)
Theorem presence_reported_iff w :
  exists resp,
    fst (diagnose w) = Returns resp /\
    (resp !! "database_url" = Some (VStr SET) <->
       exists v, getenv w "DATABASE_URL" = Some v /\ v <> "") /\
    (resp !! "database_name" = Some (VStr SET) <->
       exists v, getenv w "DATABASE_NAME" = Some v /\ v <> "").
Proof.
  eexists. split; [ apply diagnose_response | ].
  split.
  - change (Some (presence w "DATABASE_URL") = Some (VStr SET) <->
            exists v, getenv w "DATABASE_URL" = Some v /\ v <> "").
    rewrite <- presence_set_iff. split; intros H; congruence.
  - change (Some (presence w "DATABASE_NAME") = Some (VStr SET) <->
            exists v, getenv w "DATABASE_NAME" = Some v /\ v <> "").
    rewrite <- presence_set_iff. split; intros H; congruence.
Qed.




(** X23: the store handle's [name] never reaches the answer: the value
    written to [database_name] from it is overwritten before the return, so
    the probe answers the same for any name. *)
Theorem diagnose_ignores_store_name w name :
  diagnose (rename_db name w) = diagnose w.
Proof.
  apply injective_projections.
  - rewrite !diagnose_response.
    unfold database_status, reported_collections, rename_db, presence, getenv.
    simpl. destruct (db w) as [d|]; reflexivity.
  - unfold diagnose, test_database, set_response, rename_db. run_handler.
    destruct (db w) as [d|]; simpl; [ | reflexivity ].
    destruct (list_collection_names d); reflexivity.
Qed.

(** ** Listing: what a normal answer never holds *)

Lemma normalize_id_no_object_id d hex :
  normalize_id d !! "_id" <> Some (VObjectId hex).
Proof.
  destruct (d !! "_id") as [v|] eqn:Hid.
  - destruct v;
      try (rewrite (normalize_id_other d) by (intros h; rewrite Hid; congruence);
           rewrite Hid; congruence).
    destruct (normalize_id_object_id d hex0 Hid) as (Hgone & _ & _).
    rewrite Hgone. discriminate.
  - rewrite (normalize_id_other d) by (intros h; rewrite Hid; discriminate).
    rewrite Hid. discriminate.
Qed.

(** X24: when the store read returns and [bson] is importable, no record of
    the answer carries an [ObjectId] under [_id]: each was converted, or was
    of another type from the start. *)
Theorem listing_leaves_no_object_id w category region featured limit found u :
  get_documents w "artisan" (artisan_filter category region featured) limit
    = Returns found ->
  import_bson w = Returns u ->
  exists out,
    fst (listing w category region featured limit) = Returns out /\
    forall d hex, d ∈ out -> d !! "_id" <> Some (VObjectId hex).
Proof.
  intros Hget Himp. exists (normalize_id <$> found).
  rewrite (listing_normal w category region featured limit found u Hget Himp).
  split; [ reflexivity | ].
  intros d hex Hin.
  apply list_elem_of_fmap in Hin as (d0 & -> & _).
  apply normalize_id_no_object_id.
Qed.

Lemma listing_leaves_no_object_id_witness :
  exists out,
    fst (listing world_mixed_ids None None None 24) = Returns out /\
    forall d hex, d ∈ out -> d !! "_id" <> Some (VObjectId hex).
Proof.
  apply (listing_leaves_no_object_id world_mixed_ids None None None 24
           [ by_object_id; by_string_id ] tt).
  - reflexivity.
  - reflexivity.
Defined.
